(** * flaskbb.user.views

    A shallow embedding of the user views of the forum
    ([src/flaskbb/user/views.py]): the four settings views, the
    file-deletion view and the token-generation view, together with
    theorems about their control flow and their effects.

    The views are thin controllers.  Everything they call (forms, update
    handlers, the ORM, the logger, the flash service, the file system) is
    a collaborator; the embedding threads an explicit [World] through a
    state-and-exception monad and records every collaborator call in a
    trace, so that "what was called, in which order" is a statement about
    a list. *)

From stdpp Require Import gmap strings list.
From Stdlib Require Import ZArith Ascii.

Local Open Scope Z_scope.

(** ** Records of the ORM models the views touch

    Only the attributes read by [views.py] are kept. *)

Module User.
Record t := mk { id : Z; username : string; discord : string }.
End User.

Module UploadedFile.
Record t := mk { id : Z; user_id : Z; current_name : string }.
End UploadedFile.

Module Token.
Record t := mk { token : string; discord_user_id : string }.
End Token.

(** The forum database ([User.query], [UploadedFile.query]): tables are
    row lists, [filter_by(...).first()] is the first matching row. *)
Record Database := {
  users : list User.t;
  uploads : list UploadedFile.t
}.

(** The hub database as [db_hub.session] and [Token.query] see it: the
    rows of the token table. *)
Record HubSession := {
  tokens : list Token.t
}.

(** The part of the file system [os.remove] acts on: regular files by
    path, and the paths whose removal the operating system refuses. *)
Record FileSystem := {
  files : gmap string string;
  protected : gset string
}.

Inductive Level := INFO | WARNING | ERROR.

(** ** Collaborators

    Imported names whose code is outside [views.py].  [Form], [ChangeSet]
    and [Reason] are the types of the form objects built by the form
    factories, of [form.as_change()] and of the entries of
    [StopValidation.reasons]. *)
Class Collaborators := {
  Form : Type;
  ChangeSet : Type;
  Reason : Type;
  (* form.validate_on_submit(): the verdict, and the form with its own
     field errors recorded *)
  validate_on_submit : Form → bool * Form;
  as_change : Form → ChangeSet;
  populate_errors : list Reason → Form → Form;
  gettext : string → string;
  url_for : string → list (string * Z) → string;
  has_permission : User.t → string → bool;
  (* hub.utils.get_byond_ckey: the linked account name, if any *)
  get_byond_ckey : User.t → option string;
  (* flask.safe_join: [None] stands for the NotFound it raises *)
  safe_join : string → list string → option string;
  (* secrets.token_hex(nbytes), as a function of the draw number *)
  random_hex : Z → nat → string;
  (* int(s): [None] stands for ValueError *)
  py_int : string → option Z;
  (* str() of the model objects, as used by str.format *)
  str_file : UploadedFile.t → string;
  str_user : User.t → string
}.

Section runtime.
Context `{Collaborators}.

(** Python exceptions that can cross a view. *)
Inductive Exn :=
| StopValidation (reasons : list Reason)
| PersistenceError
| NotFound
| OSError (name : string)
| KeyError (key : string)
| OtherError (name : string).

Inductive Outcome (A : Type) :=
| Return (a : A)
| Raise (e : Exn).
Global Arguments Return {A} a.
Global Arguments Raise {A} e.

(** What a view hands back to the framework. *)
Inductive Response :=
| Template (name : string) (form : Form)
| FileList (name : string) (files : list UploadedFile.t)
| Redirect (location : string).

(** One entry per call to a collaborator that has an effect or reads a
  database, written when the call is made. *)
Inductive Event :=
| Validate (ok : bool)
| Apply_changeset (user : User.t) (change : ChangeSet)
| Populate_errors (reasons : list Reason)
| Log (level : Level) (message : string)
| Flash (message category : string)
| Query_file (file_id : Z)
| Query_user (user_id : Z)
| Has_permission (user : User.t) (permission : string)
| Os_remove (path : string)
| Delete_record (file_id : Z)
| Delete_tokens (key : string)
| Session_add (t : Token.t)
| Session_commit
| Session_refresh (t : Token.t)
| Session_expunge_all.

Record World := {
  db : Database;
  hub : HubSession;
  fs : FileSystem;
  draws : nat;            (* tokens drawn from the random source *)
  form : Form;            (* the view's form object, [self.form] *)
  trace : list Event
}.

(** The request context: [current_user], [request.args] and
    [current_app.config].  Every view class has
    [decorators = [login_required]]: its methods run for a signed-in
    [current_user]. *)
Record Request := {
  current_user : User.t;
  args : list (string * string);
  config : gmap string string
}.

(** *** The monad of view code *)

Definition M (A : Type) : Type := World → Outcome A * World.

Definition ret {A} (a : A) : M A := λ w, (Return a, w).

Definition bind {A B} (m : M A) (k : A → M B) : M B :=
  λ w, match m w with
       | (Return a, w') => k a w'
       | (Raise e, w') => (Raise e, w')
       end.

Definition raise {A} (e : Exn) : M A := λ w, (Raise e, w).

(** [try: m except ...: h]; the handler [h] answers [None] for the
    exceptions no [except] clause matches, which then propagate. *)
Definition try_except {A} (m : M A) (h : Exn → option (M A)) : M A :=
  λ w, match m w with
       | (Return a, w') => (Return a, w')
       | (Raise e, w') =>
           match h e with
           | Some k => k w'
           | None => (Raise e, w')
           end
       end.

Global Instance M_ret : MRet M := @ret.
Global Instance M_bind : MBind M := λ A B k m, bind m k.

Definition gets {A} (f : World → A) : M A := λ w, (Return (f w), w).
Definition modify (f : World → World) : M unit := λ w, (Return tt, f w).

Definition emit (e : Event) : M unit :=
  modify (λ w, {| db := db w; hub := hub w; fs := fs w; draws := draws w;
                  form := form w; trace := trace w ++ [e] |}).

Definition set_db (d : Database) : M unit :=
  modify (λ w, {| db := d; hub := hub w; fs := fs w; draws := draws w;
                  form := form w; trace := trace w |}).

Definition set_hub (h : HubSession) : M unit :=
  modify (λ w, {| db := db w; hub := h; fs := fs w; draws := draws w;
                  form := form w; trace := trace w |}).

Definition set_fs (f : FileSystem) : M unit :=
  modify (λ w, {| db := db w; hub := hub w; fs := f; draws := draws w;
                  form := form w; trace := trace w |}).

Definition set_draws (n : nat) : M unit :=
  modify (λ w, {| db := db w; hub := hub w; fs := fs w; draws := n;
                  form := form w; trace := trace w |}).

Definition set_form (f : Form) : M unit :=
  modify (λ w, {| db := db w; hub := hub w; fs := fs w; draws := draws w;
                  form := f; trace := trace w |}).

(** *** String and request helpers *)

(** [template.format(a, b, ...)] for templates whose only replacement
    fields are the automatic [{}]; every template of [views.py] is
    such a literal and is given as many arguments as it has fields. *)
Fixpoint format (template : string) (fields : list string) : string :=
  match template with
  | EmptyString => EmptyString
  | String "{"%char (String "}"%char rest) =>
      match fields with
      | a :: fields' => a +:+ format rest fields'
      | [] => format rest []
      end
  | String c rest => String c (format rest fields)
  end.
Global Arguments format : simpl never.

(** [request.args.get(key, default, type=int)]: the default when the
    key is absent or when the conversion raises ValueError. *)
Fixpoint args_first (key : string) (l : list (string * string)) : option string :=
  match l with
  | [] => None
  | (k, v) :: l' => if String.eqb k key then Some v else args_first key l'
  end.

Definition args_get_int (req : Request) (key : string) (default : Z) : Z :=
  match args_first key (args req) with
  | None => default
  | Some v => match py_int v with
              | Some n => n
              | None => default
              end
  end.

(** *** The forms and the update handlers *)

(** An update handler works on the forum database only. *)
Record UpdateHandler := {
  apply_changeset : User.t → ChangeSet → Database → Outcome unit * Database
}.

Definition form_validate_on_submit : M bool :=
  f ← gets form;
  let '(ok, f') := validate_on_submit f in
  set_form f';; emit (Validate ok);; mret ok.

Definition form_as_change : M ChangeSet :=
  f ← gets form; mret (as_change f).

Definition form_populate_errors (reasons : list Reason) : M unit :=
  f ← gets form;
  set_form (populate_errors reasons f);; emit (Populate_errors reasons).

Definition handler_apply_changeset (h : UpdateHandler)
    (user : User.t) (change : ChangeSet) : M unit :=
  emit (Apply_changeset user change);;
  d ← gets db;
  let '(r, d') := apply_changeset h user change d in
  set_db d';;
  match r with
  | Return _ => mret tt
  | Raise e => raise e
  end.
End runtime.

(** ** The imported services, under their Python names *)

Module flask.
Section api.
Context `{Collaborators}.

(** [flash(message, category="message")] *)
Definition flash (message category : string) : M unit :=
  emit (Flash message category).

Definition redirect (location : string) : M Response :=
  mret (Redirect location).

(** [flaskbb.utils.helpers.render_template(name, form=self.form)] *)
Definition render_template (name : string) : M Response :=
  f ← gets form; mret (Template name f).

(** [abort(404)] *)
Definition abort_404 {A} : M A := raise NotFound.
End api.
End flask.

Module logger.
Section api.
Context `{Collaborators}.

(** [logger.exception] logs at level ERROR, with the traceback. *)
Definition exception (message : string) : M unit :=
  emit (Log ERROR message).
Definition warn (message : string) : M unit :=
  emit (Log WARNING message).
Definition info (message : string) : M unit :=
  emit (Log INFO message).
End api.
End logger.

(** ** The settings views *)

Module UserSettings.
Section methods.
Context `{Collaborators}.

Record t := { settings_update_handler : UpdateHandler }.

Definition render : M Response :=
  flask.render_template "user/general_settings.html".

Definition redirect : M Response :=
  flask.redirect (url_for "user.settings" []).

Definition get (self : t) : M Response := render.

Definition post (self : t) (req : Request) : M Response :=
  ok ← form_validate_on_submit;
  if ok : bool then
    early ← try_except
      (change ← form_as_change;
       handler_apply_changeset (settings_update_handler self)
         (current_user req) change;;
       mret None)
      (λ e, match e with
            | StopValidation reasons => Some (
                form_populate_errors reasons;;
                r ← render; mret (Some r))
            | PersistenceError => Some (
                logger.exception "Error while updating user settings";;
                flask.flash (gettext "Error while updating user settings") "danger";;
                r ← redirect; mret (Some r))
            | _ => None
            end);
    match early with
    | Some r => mret r
    | None =>
        flask.flash (gettext "Settings updated.") "success";;
        redirect
    end
  else render.
End methods.
End UserSettings.

Module ChangePassword.
Section methods.
Context `{Collaborators}.

Record t := { password_update_handler : UpdateHandler }.

Definition render : M Response :=
  flask.render_template "user/change_password.html".

Definition redirect : M Response :=
  flask.redirect (url_for "user.change_password" []).

Definition get (self : t) : M Response := render.

Definition post (self : t) (req : Request) : M Response :=
  ok ← form_validate_on_submit;
  if ok : bool then
    early ← try_except
      (change ← form_as_change;
       handler_apply_changeset (password_update_handler self)
         (current_user req) change;;
       mret None)
      (λ e, match e with
            | StopValidation reasons => Some (
                form_populate_errors reasons;;
                r ← render; mret (Some r))
            | PersistenceError => Some (
                logger.exception "Error while changing password";;
                flask.flash (gettext "Error while changing password") "danger";;
                r ← redirect; mret (Some r))
            | _ => None
            end);
    match early with
    | Some r => mret r
    | None =>
        flask.flash (gettext "Password updated.") "success";;
        redirect
    end
  else render.
End methods.
End ChangePassword.

Module ChangeEmail.
Section methods.
Context `{Collaborators}.

Record t := { update_email_handler : UpdateHandler }.

Definition render : M Response :=
  flask.render_template "user/change_email.html".

Definition redirect : M Response :=
  flask.redirect (url_for "user.change_email" []).

Definition get (self : t) : M Response := render.

Definition post (self : t) (req : Request) : M Response :=
  ok ← form_validate_on_submit;
  if ok : bool then
    early ← try_except
      (change ← form_as_change;
       handler_apply_changeset (update_email_handler self)
         (current_user req) change;;
       mret None)
      (λ e, match e with
            | StopValidation reasons => Some (
                form_populate_errors reasons;;
                r ← render; mret (Some r))
            | PersistenceError => Some (
                logger.exception "Error while updating email";;
                flask.flash (gettext "Error while updating email") "danger";;
                r ← redirect; mret (Some r))
            | _ => None
            end);
    match early with
    | Some r => mret r
    | None =>
        flask.flash (gettext "Email address updated.") "success";;
        redirect
    end
  else render.
End methods.
End ChangeEmail.

Module ChangeUserDetails.
Section methods.
Context `{Collaborators}.

Record t := { details_update_handler : UpdateHandler }.

Definition render : M Response :=
  flask.render_template "user/change_user_details.html".

Definition redirect : M Response :=
  flask.redirect (url_for "user.change_user_details" []).

Definition get (self : t) : M Response := render.

Definition post (self : t) (req : Request) : M Response :=
  ok ← form_validate_on_submit;
  if ok : bool then
    early ← try_except
      (change ← form_as_change;
       handler_apply_changeset (details_update_handler self)
         (current_user req) change;;
       mret None)
      (λ e, match e with
            | StopValidation reasons => Some (
                form_populate_errors reasons;;
                r ← render; mret (Some r))
            | PersistenceError => Some (
                logger.exception "Error while updating user details";;
                flask.flash (gettext "Error while updating user details") "danger";;
                r ← redirect; mret (Some r))
            | _ => None
            end);
    match early with
    | Some r => mret r
    | None =>
        flask.flash (gettext "User details updated.") "success";;
        redirect
    end
  else render.
End methods.
End ChangeUserDetails.

(** ** The ORM, the file system and the random source *)

Module orm.
Section api.
Context `{Collaborators}.

(** [UploadedFile.query.filter_by(id=file_id).first_or_404()] *)
Definition file_first_or_404 (file_id : Z) : M UploadedFile.t :=
  emit (Query_file file_id);;
  d ← gets db;
  match List.find (λ r, UploadedFile.id r =? file_id) (uploads d) with
  | Some r => mret r
  | None => flask.abort_404
  end.

(** [User.query.filter_by(id=user_id).first_or_404()] *)
Definition user_first_or_404 (user_id : Z) : M User.t :=
  emit (Query_user user_id);;
  d ← gets db;
  match List.find (λ r, User.id r =? user_id) (users d) with
  | Some r => mret r
  | None => flask.abort_404
  end.

(** [UploadedFile.query.filter_by(user_id=user_id).all()] *)
Definition files_of_user (user_id : Z) : M (list UploadedFile.t) :=
  d ← gets db;
  mret (List.filter (λ r, UploadedFile.user_id r =? user_id) (uploads d)).

(** [file_record.delete()]: the row with the record's primary key
    leaves the table, and the change is committed. *)
Definition file_delete (r : UploadedFile.t) : M unit :=
  emit (Delete_record (UploadedFile.id r));;
  d ← gets db;
  set_db {| users := users d;
            uploads := List.filter
              (λ x, negb (UploadedFile.id x =? UploadedFile.id r)) (uploads d) |}.

(** [Token.query.filter(Token.discord_user_id == key).delete()] *)
Definition tokens_delete (key : string) : M unit :=
  emit (Delete_tokens key);;
  h ← gets hub;
  set_hub {| tokens := List.filter
               (λ t, negb (String.eqb (Token.discord_user_id t) key)) (tokens h) |}.

(** [db_hub.session.add(t)] *)
Definition session_add (t : Token.t) : M unit :=
  emit (Session_add t);;
  h ← gets hub;
  set_hub {| tokens := tokens h ++ [t] |}.

(** [db_hub.session.commit()] makes the changes of the session durable,
    [db_hub.session.refresh(t)] and [db_hub.session.expunge_all()] reload
    and detach objects: the rows the session sees stay as they are. *)
Definition session_commit : M unit := emit Session_commit.
Definition session_refresh (t : Token.t) : M unit := emit (Session_refresh t).
Definition session_expunge_all : M unit := emit Session_expunge_all.
End api.
End orm.

Module os.
Section api.
Context `{Collaborators}.

(** Why the operating system would refuse to remove [path], if it would:
    the path is protected, or there is no such file. *)
Definition refusal (f : FileSystem) (path : string) : option string :=
  if decide (path ∈ protected f) then Some "PermissionError"
  else match files f !! path with
       | None => Some "FileNotFoundError"
       | Some _ => None
       end.

(** [os.remove(path)] raises an OSError and leaves the file system as it
    is when the removal is refused. *)
Definition remove (path : string) : M unit :=
  emit (Os_remove path);;
  f ← gets fs;
  match refusal f path with
  | Some name => raise (OSError name)
  | None => set_fs {| files := delete path (files f);
                      protected := protected f |}
  end.
End api.
End os.

Module secrets.
Section api.
Context `{Collaborators}.

Definition token_hex (nbytes : Z) : M string :=
  n ← gets draws;
  set_draws (S n);;
  mret (random_hex nbytes n).
End api.
End secrets.

(** ** Uploaded files *)

Module UserUploads.
Section methods.
Context `{Collaborators}.

Definition get (req : Request) : M Response :=
  files ← orm.files_of_user (User.id (current_user req));
  mret (FileList "user/user_uploads.html" files).
End methods.
End UserUploads.

Module DeleteFile.
Section methods.
Context `{Collaborators}.

Definition warn_template : string :=
  "File {}(owned by:{}, discord:{}) was tried to be deleted by {}(discord:{})".

Definition info_template : string :=
  "File {}(owned by:{}, discord:{})) was deleted by {}(discord:{})".

Definition post (req : Request) : M Response :=
  let file_id := args_get_int req "file_id" 0 in
  file_record ← orm.file_first_or_404 file_id;
  file_owner ← orm.user_first_or_404 (UploadedFile.user_id file_record);
  (* file_owner.id == current_user.id or has_permission(current_user, "admin") *)
  allowed ← (if User.id file_owner =? User.id (current_user req)
             then mret true
             else emit (Has_permission (current_user req) "admin");;
                  mret (has_permission (current_user req) "admin"));
  if negb allowed then
    logger.warn (format warn_template
      [str_file file_record; str_user file_owner; User.discord file_owner;
       User.username (current_user req); User.discord (current_user req)]);;
    flask.redirect (url_for "user.user_uploads" [])
  else
    root ← match config req !! "UPLOAD_FOLDER" with
           | Some r => mret r
           | None => raise (KeyError "UPLOAD_FOLDER")
           end;
    path ← match safe_join root [User.discord file_owner;
                                 UploadedFile.current_name file_record] with
           | Some p => mret p
           | None => flask.abort_404
           end;
    logger.info (format info_template
      [str_file file_record; str_user file_owner; User.discord file_owner;
       User.username (current_user req); User.discord (current_user req)]);;
    os.remove path;;
    orm.file_delete file_record;;
    flask.flash (gettext "File deleted.") "success";;
    flask.redirect (url_for "user.user_uploads" []).
End methods.
End DeleteFile.

(** ** Token generation *)

Module GenerateToken.
Section methods.
Context `{Collaborators}.

(** Truth value of what [get_byond_ckey] returns. *)
Definition truthy (r : option string) : bool :=
  match r with
  | None | Some EmptyString => false
  | Some _ => true
  end.

Definition py_str (r : option string) : string :=
  match r with
  | None => "None"
  | Some s => s
  end.

Definition linked_template : string :=
  "Ваш дискорд уже привязан к аккаунту {}".

Definition token_template : string :=
  "Ваш токен {}. Чтобы выполнить привязку BYOND аккаунта, введите его, с помощью консольной команды `.chaotic-token` на одном из наших серверов.".

Definition get (req : Request) (userid : string) : M Response :=
  let current_user := current_user req in
  if truthy (get_byond_ckey current_user) then
    flask.flash
      (format linked_template [py_str (get_byond_ckey current_user)])
      "message";;
    flask.redirect (url_for "user.profile" [("userid", User.id current_user)])
  else
    orm.tokens_delete (User.discord current_user);;
    hex ← secrets.token_hex 16;
    let new_token := {| Token.token := hex;
                        Token.discord_user_id := User.discord current_user |} in
    orm.session_add new_token;;
    orm.session_commit;;
    orm.session_refresh new_token;;
    orm.session_expunge_all;;
    flask.flash (format token_template [Token.token new_token]) "message";;
    flask.redirect (url_for "user.profile" [("userid", User.id current_user)]).
End methods.
End GenerateToken.

(** ** The four settings views, side by side *)

Inductive SettingsView := General | Password | Email | Details.

Section settings.
Context `{Collaborators}.

Definition settings_get (v : SettingsView) (h : UpdateHandler) : M Response :=
  match v with
  | General => UserSettings.get {| UserSettings.settings_update_handler := h |}
  | Password => ChangePassword.get {| ChangePassword.password_update_handler := h |}
  | Email => ChangeEmail.get {| ChangeEmail.update_email_handler := h |}
  | Details => ChangeUserDetails.get {| ChangeUserDetails.details_update_handler := h |}
  end.

Definition settings_post (v : SettingsView) (h : UpdateHandler) (req : Request)
    : M Response :=
  match v with
  | General => UserSettings.post {| UserSettings.settings_update_handler := h |} req
  | Password => ChangePassword.post {| ChangePassword.password_update_handler := h |} req
  | Email => ChangeEmail.post {| ChangeEmail.update_email_handler := h |} req
  | Details =>
      ChangeUserDetails.post {| ChangeUserDetails.details_update_handler := h |} req
  end.

(** The form page of a view and the address its [redirect] goes to. *)
Definition form_page (v : SettingsView) : string :=
  match v with
  | General => "user/general_settings.html"
  | Password => "user/change_password.html"
  | Email => "user/change_email.html"
  | Details => "user/change_user_details.html"
  end.

Definition own_address (v : SettingsView) : string :=
  match v with
  | General => url_for "user.settings" []
  | Password => url_for "user.change_password" []
  | Email => url_for "user.change_email" []
  | Details => url_for "user.change_user_details" []
  end.

Definition failure_message (v : SettingsView) : string :=
  match v with
  | General => "Error while updating user settings"
  | Password => "Error while changing password"
  | Email => "Error while updating email"
  | Details => "Error while updating user details"
  end.

Definition success_message (v : SettingsView) : string :=
  match v with
  | General => "Settings updated."
  | Password => "Password updated."
  | Email => "Email address updated."
  | Details => "User details updated."
  end.

(** The world after a view has run: the same hub, file system and random
    source, with the given database, form and added trace. *)
Definition after (w : World) (d : Database) (f : Form) (evs : list Event) : World :=
  {| db := d; hub := hub w; fs := fs w; draws := draws w;
     form := f; trace := trace w ++ evs |}.
End settings.

(** ** Vocabulary of the statements *)

Section vocabulary.
Context `{Collaborators}.

(** The world with its trace extended, everything else as it is. *)
Definition traced (w : World) (evs : list Event) : World :=
  after w (db w) (form w) evs.

(** [part] occurs somewhere inside [whole]. *)
Definition occurs_in (part whole : string) : Prop :=
  ∃ before behind, whole = before +:+ part +:+ behind.

(** The record and the owner the queries of [DeleteFile.post] find. *)
Definition resolve_file (req : Request) (w : World) : option UploadedFile.t :=
  List.find (λ r, UploadedFile.id r =? args_get_int req "file_id" 0)
    (uploads (db w)).

Definition resolve_owner (f : UploadedFile.t) (w : World) : option User.t :=
  List.find (λ r, User.id r =? UploadedFile.user_id f) (users (db w)).

(** The authorization test of [DeleteFile.post]. *)
Definition allowed (req : Request) (owner : User.t) : bool :=
  (User.id owner =? User.id (current_user req))
  || has_permission (current_user req) "admin".

(** The query string has no [key], or a value [int] does not accept. *)
Definition unparseable (req : Request) (key : string) : Prop :=
  match args_first key (args req) with
  | None => True
  | Some v => py_int v = None
  end.

(** The world once file [f] is gone: its row and the bytes at [path]. *)
Definition without_file (w : World) (f : UploadedFile.t) (path : string)
    (evs : list Event) : World :=
  {| db := {| users := users (db w);
              uploads := List.filter
                (λ x, negb (UploadedFile.id x =? UploadedFile.id f))
                (uploads (db w)) |};
     hub := hub w;
     fs := {| files := delete path (files (fs w));
              protected := protected (fs w) |};
     draws := draws w; form := form w; trace := trace w ++ evs |}.

(** The calls the authorization test of [DeleteFile.post] makes: none when
    the requester owns the file, else one permission lookup. *)
Definition authorization_calls (req : Request) (owner : User.t) : list Event :=
  if User.id owner =? User.id (current_user req) then []
  else [Has_permission (current_user req) "admin"].

(** The fields both log lines of [DeleteFile.post] are formatted with. *)
Definition audit_fields (req : Request) (f : UploadedFile.t) (owner : User.t)
    : list string :=
  [str_file f; str_user owner; User.discord owner;
   User.username (current_user req); User.discord (current_user req)].

(** The deletion contract in the words of the specification (4.2):
    resolve the record, resolve its owner, authorize, remove the bytes,
    delete the record, notify. *)
Definition contract_steps (req : Request) (f : UploadedFile.t) (owner : User.t)
    (path : string) : list Event :=
  [Query_file (args_get_int req "file_id" 0);
   Query_user (UploadedFile.user_id f)]
  ++ authorization_calls req owner
  ++ [Os_remove path;
      Delete_record (UploadedFile.id f);
      Flash (gettext "File deleted.") "success"].

(** The same with the line the view writes to the log before it removes
    anything. *)
Definition logged_steps (req : Request) (f : UploadedFile.t) (owner : User.t)
    (path : string) : list Event :=
  [Query_file (args_get_int req "file_id" 0);
   Query_user (UploadedFile.user_id f)]
  ++ authorization_calls req owner
  ++ [Log INFO (format DeleteFile.info_template (audit_fields req f owner));
      Os_remove path;
      Delete_record (UploadedFile.id f);
      Flash (gettext "File deleted.") "success"].

(** What a settings view answers to a POST whose form validates, for
    each way [apply_changeset] can end. *)
Definition answer (v : SettingsView) (req : Request) (w : World) (f' : Form)
    (r : Outcome unit) (d' : Database) : Outcome Response * World :=
  let called := [Validate true;
                 Apply_changeset (current_user req) (as_change f')] in
  match r with
  | Return _ =>
      (Return (Redirect (own_address v)),
       after w d' f' (called ++ [Flash (gettext (success_message v)) "success"]))
  | Raise (StopValidation reasons) =>
      (Return (Template (form_page v) (populate_errors reasons f')),
       after w d' (populate_errors reasons f')
         (called ++ [Populate_errors reasons]))
  | Raise PersistenceError =>
      (Return (Redirect (own_address v)),
       after w d' f'
         (called ++ [Log ERROR (failure_message v);
                     Flash (gettext (failure_message v)) "danger"]))
  | Raise e => (Raise e, after w d' f' called)
  end.

(** The rows of the token table issued for one external identity. *)
Definition tokens_of (key : string) (h : HubSession) : list Token.t :=
  List.filter (λ t, String.eqb (Token.discord_user_id t) key) (tokens h).

(** The hub after [Token.query.filter(...).delete()] for [key]. *)
Definition purged (key : string) (h : HubSession) : HubSession :=
  {| tokens := List.filter
       (λ t, negb (String.eqb (Token.discord_user_id t) key)) (tokens h) |}.

Definition at_most_one_token (h : HubSession) : Prop :=
  ∀ key, (length (tokens_of key h) ≤ 1)%nat.

(** The token [GenerateToken.get] issues in world [w]. *)
Definition issued (req : Request) (w : World) : Token.t :=
  {| Token.token := random_hex 16 (draws w);
     Token.discord_user_id := User.discord (current_user req) |}.
End vocabulary.

(** ** A small forum to run the views on *)

Module demo.

Record webform := {
  valid : bool;
  data : list (string * string);
  errors : list (string * string)
}.

Fixpoint digits (s : string) (acc : Z) : option Z :=
  match s with
  | EmptyString => Some acc
  | String c rest =>
      let n := Z.of_nat (nat_of_ascii c) in
      if (48 <=? n) && (n <=? 57) then digits rest (10 * acc + (n - 48))
      else None
  end.

(** Unsigned decimal numerals, a part of what [int] accepts. *)
Definition int (s : string) : option Z :=
  match s with
  | EmptyString => None
  | _ => digits s 0
  end.

Definition join (root : string) (parts : list string) : option string :=
  if existsb (String.eqb "..") parts then None
  else Some (fold_left (λ acc p, acc +:+ "/" +:+ p) parts root).

Definition collaborators : Collaborators := {|
  Form := webform;
  ChangeSet := list (string * string);
  Reason := string * string;
  validate_on_submit f := (valid f, f);
  as_change f := data f;
  populate_errors rs f :=
    {| valid := valid f; data := data f; errors := errors f ++ rs |};
  gettext s := s;
  url_for endpoint values := "/" +:+ endpoint;
  has_permission u p := (User.id u =? 1) && String.eqb p "admin";
  get_byond_ckey u :=
    if String.eqb (User.discord u) "carol#3" then Some "carolkey" else None;
  safe_join := join;
  random_hex nbytes n :=
    if Nat.even n then "000102030405060708090a0b0c0d0e0f"
    else "f0e0d0c0b0a090807060504030201000";
  py_int := int;
  str_file f := "<UploadedFile " +:+ UploadedFile.current_name f +:+ ">";
  str_user u := "<User " +:+ User.username u +:+ ">"
|}.

Definition alice := User.mk 1 "alice" "alice#1".
Definition bob := User.mk 2 "bob" "bob#2".
Definition carol := User.mk 3 "carol" "carol#3".
Definition dave := User.mk 4 "dave" "dave#4".

Definition cat := UploadedFile.mk 7 2 "cat.png".
Definition cat_path : string := "/srv/uploads/bob#2/cat.png".

(** The change the filled-in form asks for. *)
Definition robert : @ChangeSet collaborators := [("username", "robert")].

Definition filled (ok : bool) : @Form collaborators :=
  {| valid := ok; data := robert; errors := [] |}.

Definition world (f : webform) : World (H := collaborators) :=
  @Build_World collaborators
    {| users := [alice; bob; carol; dave]; uploads := [cat] |}
    {| tokens := [Token.mk "aa" "bob#2"; Token.mk "bb" "dave#4";
                  Token.mk "cc" "bob#2"] |}
    {| files := {[ cat_path := "meow" ]}; protected := ∅ |}
    0%nat f [].

(** The same forum with the stored file write-protected. *)
Definition locked_world (f : webform) : World (H := collaborators) :=
  @Build_World collaborators
    (db (world f)) (hub (world f))
    {| files := files (fs (world f)); protected := {[ cat_path ]} |}
    0%nat f [].

(** A forum whose token table holds one token per external identity. *)
Definition tidy_world (f : webform) : World (H := collaborators) :=
  @Build_World collaborators
    (db (world f))
    {| tokens := [Token.mk "aa" "bob#2"; Token.mk "bb" "dave#4"] |}
    (fs (world f)) 0%nat f [].

Definition request (u : User.t) (query : list (string * string))
    : Request :=
  {| current_user := u; args := query;
     config := {[ "UPLOAD_FOLDER" := "/srv/uploads" ]} |}.

(** Update handlers: one that renames the user, one that rejects the
    change, one whose write fails. *)
Definition renamed (u : User.t) (change : list (string * string)) (d : Database)
    : Database :=
  {| users := map (λ x, if User.id x =? User.id u
                        then User.mk (User.id x)
                               (default (User.username x) (snd <$> head change))
                               (User.discord x)
                        else x) (users d);
     uploads := uploads d |}.

Definition rename : UpdateHandler (H := collaborators) :=
  @Build_UpdateHandler collaborators (λ u change d, (Return tt, renamed u change d)).

Definition rejection : list (@Reason collaborators) :=
  [("username", "already taken")].

Definition reject : UpdateHandler (H := collaborators) :=
  @Build_UpdateHandler collaborators
    (λ u change d, (Raise (@StopValidation collaborators rejection), d)).

Definition broken : UpdateHandler (H := collaborators) :=
  @Build_UpdateHandler collaborators
    (λ u change d, (Raise (@PersistenceError collaborators), d)).
End demo.

(** ** Routes

    [flaskbb_load_blueprints] builds the blueprint [user] and hands it to
    the application.  A blueprint is the list of its URL rules, each with
    the name [as_view] gave the view; registering the blueprint puts
    every rule behind the prefix and every name behind the blueprint's
    name and a dot. *)

Module routes.

Record Blueprint := {
  name : string;
  url_rules : list (string * string)
}.

Record App := {
  app_config : gmap string string;
  url_map : list (string * string)
}.

(** [register_view(bp, routes=[...], view_func=View.as_view(view_name))]:
    one URL rule per route. *)
Definition register_view (bp : Blueprint) (routes : list string)
    (view_name : string) : Blueprint :=
  {| name := name bp;
     url_rules := url_rules bp ++ map (λ r, (r, view_name)) routes |}.

(** [app.register_blueprint(bp, url_prefix=prefix)] *)
Definition register_blueprint (app : App) (bp : Blueprint) (prefix : string)
    : App :=
  {| app_config := app_config app;
     url_map := url_map app ++
       map (λ rv, (prefix +:+ fst rv, name bp +:+ "." +:+ snd rv))
         (url_rules bp) |}.

(** [None] stands for the KeyError of [app.config["USER_URL_PREFIX"]]. *)
Definition flaskbb_load_blueprints (app : App) : option App :=
  let user := {| name := "user"; url_rules := [] |} in
  let user := register_view user ["/settings/email"] "change_email" in
  let user := register_view user ["/settings/general"] "settings" in
  let user := register_view user ["/settings/password"] "change_password" in
  let user := register_view user ["/settings/user-details"]
                "change_user_details" in
  let user := register_view user ["/settings/uploads"] "user_uploads" in
  let user := register_view user ["/settings/uploads/delete"] "delete_file" in
  let user := register_view user ["/user<userid>/posts"] "view_all_posts" in
  let user := register_view user ["/user<userid>/topics"] "view_all_topics" in
  let user := register_view user ["/user<userid>/generate-token"]
                "generate_token" in
  let user := register_view user ["/user<userid>"] "profile" in
  match app_config app !! "USER_URL_PREFIX" with
  | Some prefix => Some (register_blueprint app user prefix)
  | None => None
  end.

(** The endpoints an application can build URLs for. *)
Definition endpoints (app : App) : list string := map snd (url_map app).
End routes.

(** ** More vocabulary *)

Section more_vocabulary.
Context `{Collaborators}.

(** How often a trace calls an update handler. *)
Definition handler_calls (evs : list Event) : nat :=
  length (List.filter (λ e, match e with
                            | Apply_changeset _ _ => true
                            | _ => false
                            end) evs).

(** The messages a trace flashes, oldest first. *)
Definition flashed (evs : list Event) : list string :=
  omap (λ e, match e with
             | Flash message _ => Some message
             | _ => None
             end) evs.

(** The exceptions the settings views have an [except] clause for. *)
Definition caught (e : Exn) : bool :=
  match e with
  | StopValidation _ | PersistenceError => true
  | _ => false
  end.

(** An answer of a settings view: its form page, a redirect to its own
    address, or an exception. *)
Definition settings_answer (v : SettingsView) (r : Outcome Response) : Prop :=
  match r with
  | Return (Template page _) => page = form_page v
  | Return (Redirect location) => location = own_address v
  | Return (FileList _ _) => False
  | Raise _ => True
  end.

(** An answer of [DeleteFile.post]: the redirect to the uploads page, a
    404, or the error of the configuration lookup or of [os.remove]. *)
Definition deletion_answer (r : Outcome Response) : Prop :=
  match r with
  | Return (Redirect location) => location = url_for "user.user_uploads" []
  | Return _ => False
  | Raise NotFound => True
  | Raise (KeyError key) => key = "UPLOAD_FOLDER"
  | Raise (OSError _) => True
  | Raise _ => False
  end.

(** A redirect, if the answer is one, goes to the URL of an endpoint of
    [app]. *)
Definition redirects_within (app : routes.App) (r : Outcome Response) : Prop :=
  ∀ location, r = Return (Redirect location) →
    ∃ endpoint values,
      location = url_for endpoint values ∧ In endpoint (routes.endpoints app).
End more_vocabulary.

(** ** More of the small forum *)

Module cases.

(** An update handler that fails with an exception of its own. *)
Definition crash : UpdateHandler (H := demo.collaborators) :=
  @Build_UpdateHandler demo.collaborators
    (λ u change d, (Raise (@OtherError demo.collaborators "RuntimeError"), d)).

(** A record of bob's whose stored name [safe_join] refuses. *)
Definition trap := UploadedFile.mk 8 2 "..".

Definition trap_world : World (H := demo.collaborators) :=
  @Build_World demo.collaborators
    {| users := [demo.alice; demo.bob; demo.carol; demo.dave];
       uploads := [demo.cat; trap] |}
    (hub (demo.world (demo.filled false)))
    (fs (demo.world (demo.filled false)))
    0%nat (demo.filled false) [].

(** A request to an application without an upload folder. *)
Definition bare_request (u : User.t) (query : list (string * string))
    : Request :=
  {| current_user := u; args := query; config := ∅ |}.

Definition forum_app : routes.App :=
  {| routes.app_config := {[ "USER_URL_PREFIX" := "/user" ]};
     routes.url_map := [("/", "forum.index")] |}.
End cases.

(** * Theorems *)

(** Run view code: unfold the monad and the services down to the state
    function, reducing the projections of the worlds built on the way. *)
Ltac run :=
  repeat progress (lazy beta iota zeta delta
    [settings_get settings_post
     UserSettings.get UserSettings.post UserSettings.render UserSettings.redirect
     ChangePassword.get ChangePassword.post ChangePassword.render
     ChangePassword.redirect
     ChangeEmail.get ChangeEmail.post ChangeEmail.render ChangeEmail.redirect
     ChangeUserDetails.get ChangeUserDetails.post ChangeUserDetails.render
     ChangeUserDetails.redirect
     form_validate_on_submit form_as_change form_populate_errors
     handler_apply_changeset try_except
     flask.flash flask.redirect flask.render_template flask.abort_404
     logger.exception logger.warn logger.info
     emit set_db set_hub set_fs set_draws set_form gets modify raise
     mbind M_bind bind mret M_ret ret after traced
     orm.file_first_or_404 orm.user_first_or_404
     orm.files_of_user orm.file_delete orm.tokens_delete orm.session_add
     orm.session_commit orm.session_refresh orm.session_expunge_all
     os.remove secrets.token_hex without_file
     db hub fs draws form trace];
    cbn [db hub fs draws form trace fst snd negb
         UserSettings.settings_update_handler
         ChangePassword.password_update_handler
         ChangeEmail.update_email_handler
         ChangeUserDetails.details_update_handler]).

(** Take the world apart, so that its projections compute. *)
Ltac open_world w :=
  destruct w; cbn [db hub fs draws form trace] in *.

(** Close a goal between two worlds whose traces are nested appends. *)
Ltac same_world := run; cbn [app]; rewrite <- ?app_assoc; reflexivity.

(** ** Settings views *)

Section settings_facts.
Context `{Collaborators}.

Lemma settings_post_valid (v : SettingsView) (h : UpdateHandler) (req : Request)
    (w : World) (f' : Form) (r : Outcome unit) (d' : Database) :
  validate_on_submit (form w) = (true, f') →
  apply_changeset h (current_user req) (as_change f') (db w) = (r, d') →
  settings_post v h req w = answer v req w f' r d'.
Proof.
  intros Hv Ha. open_world w.
  destruct v; run; rewrite Hv; run; rewrite Ha;
    destruct r as [[]|[]]; same_world.
Qed.

Lemma settings_post_invalid (v : SettingsView) (h : UpdateHandler)
    (req : Request) (w : World) (f' : Form) :
  validate_on_submit (form w) = (false, f') →
  settings_post v h req w =
    (Return (Template (form_page v) f'), after w (db w) f' [Validate false]).
Proof.
  intros Hv. open_world w. destruct v; run; rewrite Hv; same_world.
Qed.

Lemma settings_get_renders (v : SettingsView) (h : UpdateHandler) (w : World) :
  settings_get v h w = (Return (Template (form_page v) (form w)), w).
Proof. destruct v; reflexivity. Qed.

(** C1.  In each of the four settings views, when the form validates and
    [apply_changeset] raises [StopValidation reasons], the POST handler
    passes [reasons] to [form.populate_errors] and answers with the form
    page rendered from that form.  The answer is no redirect, and the
    calls made are the validation, the handler and [populate_errors]: no
    flash of any category. *)
Theorem settings_rejection_rerenders (v : SettingsView) (h : UpdateHandler)
    (req : Request) (w : World) (f' : Form) (reasons : list Reason)
    (d' : Database) :
  validate_on_submit (form w) = (true, f') →
  apply_changeset h (current_user req) (as_change f') (db w)
    = (Raise (StopValidation reasons), d') →
  settings_post v h req w =
    (Return (Template (form_page v) (populate_errors reasons f')),
     after w d' (populate_errors reasons f')
       [Validate true;
        Apply_changeset (current_user req) (as_change f');
        Populate_errors reasons]).
Proof.
  intros Hv Ha. rewrite (settings_post_valid v h req w f' _ d' Hv Ha).
  reflexivity.
Qed.

(** C2.  In each of the four settings views, when [apply_changeset]
    raises [PersistenceError], the POST handler logs the failure, flashes
    the view's generic error message in category [danger] and answers
    with a redirect to the view's own address; the form gets no errors
    and is not rendered. *)
Theorem settings_persistence_failure_redirects (v : SettingsView)
    (h : UpdateHandler) (req : Request) (w : World) (f' : Form) (d' : Database) :
  validate_on_submit (form w) = (true, f') →
  apply_changeset h (current_user req) (as_change f') (db w)
    = (Raise PersistenceError, d') →
  settings_post v h req w =
    (Return (Redirect (own_address v)),
     after w d' f'
       [Validate true;
        Apply_changeset (current_user req) (as_change f');
        Log ERROR (failure_message v);
        Flash (gettext (failure_message v)) "danger"]).
Proof.
  intros Hv Ha. rewrite (settings_post_valid v h req w f' _ d' Hv Ha).
  reflexivity.
Qed.

(** C7.  In each of the four settings views a GET renders the form page
    and changes nothing; a POST whose form does not validate renders the
    form page as well, and the only call made is the validation: the
    update handler is not called and the database is as before. *)
Theorem settings_invalid_form_short_circuits (v : SettingsView)
    (h : UpdateHandler) (req : Request) (w : World) (f' : Form) :
  settings_get v h w = (Return (Template (form_page v) (form w)), w)
  ∧ (validate_on_submit (form w) = (false, f') →
     settings_post v h req w =
       (Return (Template (form_page v) f'),
        after w (db w) f' [Validate false])).
Proof.
  split; [apply settings_get_renders | apply settings_post_invalid].
Qed.

(** C8.  In each of the four settings views, when [apply_changeset]
    returns, the POST handler ends with a redirect to the view's own
    address, in a world that holds the database the handler left and
    whose trace has the success flash after the handler call. *)
Theorem settings_success_notifies_then_redirects (v : SettingsView)
    (h : UpdateHandler) (req : Request) (w : World) (f' : Form) (d' : Database) :
  validate_on_submit (form w) = (true, f') →
  apply_changeset h (current_user req) (as_change f') (db w) = (Return tt, d') →
  settings_post v h req w =
    (Return (Redirect (own_address v)),
     after w d' f'
       [Validate true;
        Apply_changeset (current_user req) (as_change f');
        Flash (gettext (success_message v)) "success"]).
Proof.
  intros Hv Ha. rewrite (settings_post_valid v h req w f' _ d' Hv Ha).
  reflexivity.
Qed.
End settings_facts.

(** ** File deletion *)

Section deletion_facts.
Context `{Collaborators}.

Lemma append_assoc (a b c : string) : (a +:+ b) +:+ c = a +:+ b +:+ c.
Proof.
  induction a as [|x a IH]; [reflexivity|].
  change (String x ((a +:+ b) +:+ c) = String x (a +:+ b +:+ c)).
  now f_equal.
Qed.

Lemma occurs_in_middle (before part behind : string) :
  occurs_in part (before +:+ part +:+ behind).
Proof. now exists before, behind. Qed.

Lemma delete_file_missing (req : Request) (w : World) :
  resolve_file req w = None →
  DeleteFile.post req w =
    (Raise NotFound, traced w [Query_file (args_get_int req "file_id" 0)]).
Proof.
  unfold resolve_file, DeleteFile.post. intros Hf. open_world w.
  run. rewrite Hf. same_world.
Qed.

Lemma delete_owner_missing (req : Request) (w : World) (f : UploadedFile.t) :
  resolve_file req w = Some f →
  resolve_owner f w = None →
  DeleteFile.post req w =
    (Raise NotFound,
     traced w [Query_file (args_get_int req "file_id" 0);
               Query_user (UploadedFile.user_id f)]).
Proof.
  unfold resolve_file, resolve_owner, DeleteFile.post. intros Hf Ho.
  open_world w. run. rewrite Hf. run. rewrite Ho. same_world.
Qed.

Lemma delete_refused (req : Request) (w : World) (f : UploadedFile.t)
    (o : User.t) :
  resolve_file req w = Some f →
  resolve_owner f w = Some o →
  allowed req o = false →
  DeleteFile.post req w =
    (Return (Redirect (url_for "user.user_uploads" [])),
     traced w [Query_file (args_get_int req "file_id" 0);
               Query_user (UploadedFile.user_id f);
               Has_permission (current_user req) "admin";
               Log WARNING (format DeleteFile.warn_template (audit_fields req f o))]).
Proof.
  unfold resolve_file, resolve_owner, allowed, DeleteFile.post.
  intros Hf Ho Ha. apply orb_false_iff in Ha as [Hid Hp].
  open_world w. run. rewrite Hf. run. rewrite Ho. run. rewrite Hid. run. rewrite Hp.
  same_world.
Qed.

(** The run of an allowed deletion up to the call of [os.remove]. *)
Lemma delete_allowed (req : Request) (w : World) (f : UploadedFile.t)
    (o : User.t) (root path : string) :
  resolve_file req w = Some f →
  resolve_owner f w = Some o →
  allowed req o = true →
  config req !! "UPLOAD_FOLDER" = Some root →
  safe_join root [User.discord o; UploadedFile.current_name f] = Some path →
  DeleteFile.post req w =
    match os.refusal (fs w) path with
    | Some name =>
        (Raise (OSError name),
         traced w ([Query_file (args_get_int req "file_id" 0);
                    Query_user (UploadedFile.user_id f)]
                   ++ authorization_calls req o
                   ++ [Log INFO (format DeleteFile.info_template
                                   (audit_fields req f o));
                       Os_remove path]))
    | None =>
        (Return (Redirect (url_for "user.user_uploads" [])),
         without_file w f path (logged_steps req f o path))
    end.
Proof.
  unfold resolve_file, resolve_owner, allowed, DeleteFile.post,
    logged_steps, authorization_calls.
  intros Hf Ho Ha Hc Hj. open_world w.
  run. rewrite Hf. run. rewrite Ho. run.
  destruct (User.id o =? User.id (current_user req)); cbn in Ha |- *;
    rewrite ?Ha; run; rewrite Hc; run; rewrite Hj; run;
    match goal with |- context [os.refusal ?f path] =>
      destruct (os.refusal f path) end; same_world.
Qed.
Lemma warn_message_shape (a b c d e : string) :
  format DeleteFile.warn_template [a; b; c; d; e] =
    "File " +:+ a +:+ "(owned by:" +:+ b +:+ ", discord:" +:+ c
    +:+ ") was tried to be deleted by " +:+ d +:+ "(discord:" +:+ e +:+ ")".
Proof. reflexivity. Qed.

(** C3.  When the record and its owner resolve and the requester neither
    is the owner nor has the [admin] permission, [DeleteFile.post] answers
    with a redirect to the uploads page; the table of uploaded files and
    the stored files are as before (neither [os.remove] nor the record's
    [delete] is called), and the last call is a warning whose message
    contains the requester's user name, the owner and the file. *)
Theorem unauthorized_deletion_is_refused (req : Request) (w : World)
    (f : UploadedFile.t) (o : User.t) :
  resolve_file req w = Some f →
  resolve_owner f w = Some o →
  allowed req o = false →
  let message := format DeleteFile.warn_template (audit_fields req f o) in
  let w' := snd (DeleteFile.post req w) in
  DeleteFile.post req w =
    (Return (Redirect (url_for "user.user_uploads" [])),
     traced w [Query_file (args_get_int req "file_id" 0);
               Query_user (UploadedFile.user_id f);
               Has_permission (current_user req) "admin";
               Log WARNING message])
  ∧ uploads (db w') = uploads (db w)
  ∧ fs w' = fs w
  ∧ occurs_in (User.username (current_user req)) message
  ∧ occurs_in (str_user o) message
  ∧ occurs_in (str_file f) message.
Proof.
  intros Hf Ho Ha message w'. subst w'.
  rewrite (delete_refused req w f o Hf Ho Ha).
  repeat split; subst message; unfold audit_fields;
    rewrite warn_message_shape.
  - exists ("File " +:+ str_file f +:+ "(owned by:" +:+ str_user o
            +:+ ", discord:" +:+ User.discord o
            +:+ ") was tried to be deleted by "),
           ("(discord:" +:+ User.discord (current_user req) +:+ ")").
    now rewrite !append_assoc.
  - exists ("File " +:+ str_file f +:+ "(owned by:"),
           (", discord:" +:+ User.discord o
            +:+ ") was tried to be deleted by "
            +:+ User.username (current_user req)
            +:+ "(discord:" +:+ User.discord (current_user req) +:+ ")").
    now rewrite !append_assoc.
  - apply occurs_in_middle.
Qed.

(** C4, as the code has it.  [DeleteFile.post] resolves the record (404
    when there is none), then its owner (404 when there is none), then
    authorizes; for an allowed requester, with the upload folder
    configured, a path [safe_join] accepts and a removal the operating
    system performs, it writes a line to the log at level INFO, removes
    the bytes at the path joined from the upload folder, the owner's
    [discord] and the record's [current_name], deletes the record,
    flashes success and answers with a redirect, in this order. *)
Theorem file_deletion_steps (req : Request) (w : World) :
  match resolve_file req w with
  | None =>
      DeleteFile.post req w =
        (Raise NotFound, traced w [Query_file (args_get_int req "file_id" 0)])
  | Some f =>
      match resolve_owner f w with
      | None =>
          DeleteFile.post req w =
            (Raise NotFound,
             traced w [Query_file (args_get_int req "file_id" 0);
                       Query_user (UploadedFile.user_id f)])
      | Some o =>
          ∀ root path : string,
            allowed req o = true →
            config req !! "UPLOAD_FOLDER" = Some root →
            safe_join root [User.discord o; UploadedFile.current_name f]
              = Some path →
            os.refusal (fs w) path = None →
            DeleteFile.post req w =
              (Return (Redirect (url_for "user.user_uploads" [])),
               without_file w f path (logged_steps req f o path))
      end
  end.
Proof.
  destruct (resolve_file req w) as [f|] eqn:Hf;
    [| now apply delete_file_missing].
  destruct (resolve_owner f w) as [o|] eqn:Ho;
    [| now apply delete_owner_missing].
  intros root path Ha Hc Hj Hr.
  rewrite (delete_allowed req w f o root path Hf Ho Ha Hc Hj), Hr.
  reflexivity.
Qed.

(** C9.  When [os.remove] raises, [DeleteFile.post] raises the same
    OSError: no [except] clause of the view catches it.  The last call
    is [os.remove]; the record's [delete] is not called and the database
    is as before, so the record still resolves. *)
Theorem failed_removal_propagates (req : Request) (w : World)
    (f : UploadedFile.t) (o : User.t) (root path name : string) :
  resolve_file req w = Some f →
  resolve_owner f w = Some o →
  allowed req o = true →
  config req !! "UPLOAD_FOLDER" = Some root →
  safe_join root [User.discord o; UploadedFile.current_name f] = Some path →
  os.refusal (fs w) path = Some name →
  let w' := snd (DeleteFile.post req w) in
  DeleteFile.post req w =
    (Raise (OSError name),
     traced w ([Query_file (args_get_int req "file_id" 0);
                Query_user (UploadedFile.user_id f)]
               ++ authorization_calls req o
               ++ [Log INFO (format DeleteFile.info_template
                               (audit_fields req f o));
                   Os_remove path]))
  ∧ db w' = db w
  ∧ fs w' = fs w
  ∧ resolve_file req w' = Some f.
Proof.
  intros Hf Ho Ha Hc Hj Hr w'. subst w'.
  rewrite (delete_allowed req w f o root path Hf Ho Ha Hc Hj), Hr.
  repeat split. exact Hf.
Qed.

(** C10.  When the query string has no [file_id], or one that [int]
    rejects, the view looks for the record with identity 0; when there is
    none, it raises NotFound (404) and the query for the record is the
    only call it has made: no owner query, no permission lookup, no
    [os.remove], no [delete], and the world is otherwise as before. *)
Theorem missing_file_id_is_not_found (req : Request) (w : World) :
  unparseable req "file_id" →
  List.find (λ r, UploadedFile.id r =? 0) (uploads (db w)) = None →
  args_get_int req "file_id" 0 = 0
  ∧ DeleteFile.post req w = (Raise NotFound, traced w [Query_file 0]).
Proof.
  intros Hu Hf.
  assert (Hz : args_get_int req "file_id" 0 = 0).
  { unfold unparseable in Hu. unfold args_get_int.
    destruct (args_first "file_id" (args req)); [now rewrite Hu | reflexivity]. }
  split; [exact Hz |].
  rewrite (delete_file_missing req w).
  - now rewrite Hz.
  - unfold resolve_file. now rewrite Hz.
Qed.
End deletion_facts.

(** ** Token generation *)

Section token_facts.
Context `{Collaborators}.

Lemma tokens_of_purged_same (key : string) (h : HubSession) :
  tokens_of key (purged key h) = [].
Proof.
  unfold tokens_of, purged; cbn.
  induction (tokens h) as [|t l IH]; [reflexivity|].
  cbn. destruct (String.eqb (Token.discord_user_id t) key) eqn:E; cbn.
  - exact IH.
  - now rewrite E.
Qed.

Lemma tokens_of_purged_length (k key : string) (h : HubSession) :
  (length (tokens_of k (purged key h)) ≤ length (tokens_of k h))%nat.
Proof.
  unfold tokens_of, purged; cbn.
  induction (tokens h) as [|t l IH]; [reflexivity|].
  cbn. destruct (String.eqb (Token.discord_user_id t) key); cbn;
    destruct (String.eqb (Token.discord_user_id t) k); cbn; lia.
Qed.

Lemma purged_keeps_invariant (key : string) (h : HubSession) :
  at_most_one_token h → at_most_one_token (purged key h).
Proof.
  intros Hinv k. pose proof (tokens_of_purged_length k key h).
  specialize (Hinv k). lia.
Qed.

Lemma tokens_of_issue (k key : string) (h : HubSession) (t : Token.t) :
  Token.discord_user_id t = key →
  tokens_of k {| tokens := tokens (purged key h) ++ [t] |} =
    tokens_of k (purged key h) ++ (if String.eqb key k then [t] else []).
Proof.
  intros <-. unfold tokens_of at 1. cbn [tokens].
  rewrite List.filter_app. reflexivity.
Qed.

Lemma issue_keeps_invariant (key : string) (h : HubSession) (t : Token.t) :
  Token.discord_user_id t = key →
  at_most_one_token h →
  at_most_one_token {| tokens := tokens (purged key h) ++ [t] |}.
Proof.
  intros Ht Hinv k. rewrite (tokens_of_issue k key h t Ht).
  destruct (String.eqb key k) eqn:E.
  - apply String.eqb_eq in E as <-. now rewrite tokens_of_purged_same.
  - rewrite app_nil_r. now apply purged_keeps_invariant.
Qed.

Lemma generate_token_unlinked (req : Request) (userid : string) (w : World) :
  GenerateToken.truthy (get_byond_ckey (current_user req)) = false →
  GenerateToken.get req userid w =
    (Return (Redirect (url_for "user.profile"
                         [("userid", User.id (current_user req))])),
     {| db := db w;
        hub := {| tokens := tokens (purged (User.discord (current_user req))
                                      (hub w))
                            ++ [issued req w] |};
        fs := fs w; draws := S (draws w); form := form w;
        trace := trace w ++
          [Delete_tokens (User.discord (current_user req));
           Session_add (issued req w);
           Session_commit;
           Session_refresh (issued req w);
           Session_expunge_all;
           Flash (format GenerateToken.token_template
                    [Token.token (issued req w)]) "message"] |}).
Proof.
  intros Hl. unfold GenerateToken.get, issued, purged. rewrite Hl.
  open_world w. same_world.
Qed.

(** C6.  When [get_byond_ckey] finds an account linked to the requester,
    [GenerateToken.get] flashes one message that names the account and
    answers with a redirect to the requester's profile.  The flash is the
    only call: no token is deleted, none is added, the hub and the random
    source are as before. *)
Theorem linked_principal_gets_no_token (req : Request) (userid : string)
    (w : World) :
  GenerateToken.truthy (get_byond_ckey (current_user req)) = true →
  GenerateToken.get req userid w =
    (Return (Redirect (url_for "user.profile"
                         [("userid", User.id (current_user req))])),
     traced w [Flash (format GenerateToken.linked_template
                        [GenerateToken.py_str
                           (get_byond_ckey (current_user req))])
                 "message"])
  ∧ hub (snd (GenerateToken.get req userid w)) = hub w.
Proof.
  intros Hl. unfold GenerateToken.get. rewrite Hl. open_world w.
  split; same_world.
Qed.

(** C5.  When no account is linked to the requester, [GenerateToken.get]
    first deletes every token row whose [discord_user_id] is the
    requester's [discord], then adds and commits the new token.  Between
    the deletion and the insertion the requester's identity has no token,
    afterwards it has the new token and no other; and a token table with
    at most one token per identity stays so at both points. *)
Theorem token_generation_replaces_tokens (req : Request) (userid : string)
    (w : World) :
  GenerateToken.truthy (get_byond_ckey (current_user req)) = false →
  let key := User.discord (current_user req) in
  let w1 := snd (orm.tokens_delete key w) in
  let w2 := snd (GenerateToken.get req userid w) in
  fst (GenerateToken.get req userid w) =
    Return (Redirect (url_for "user.profile"
                        [("userid", User.id (current_user req))]))
  ∧ trace w2 = trace w ++
      [Delete_tokens key;
       Session_add (issued req w);
       Session_commit;
       Session_refresh (issued req w);
       Session_expunge_all;
       Flash (format GenerateToken.token_template
                [Token.token (issued req w)]) "message"]
  ∧ tokens (hub w2) = tokens (hub w1) ++ [issued req w]
  ∧ tokens_of key (hub w1) = []
  ∧ tokens_of key (hub w2) = [issued req w]
  ∧ (at_most_one_token (hub w) →
     at_most_one_token (hub w1) ∧ at_most_one_token (hub w2)).
Proof.
  intros Hl key w1 w2. subst w1 w2.
  rewrite (generate_token_unlinked req userid w Hl).
  change (hub (snd (orm.tokens_delete key w))) with (purged key (hub w)).
  cbn [fst snd trace hub tokens]. fold key.
  repeat split.
  - apply tokens_of_purged_same.
  - rewrite (tokens_of_issue key key (hub w) (issued req w) eq_refl).
    now rewrite tokens_of_purged_same, String.eqb_refl.
  - now apply purged_keeps_invariant.
  - now apply issue_keeps_invariant.
Qed.
End token_facts.

(** ** The theorems at work on the small forum *)

Section on_the_small_forum.
Import demo.

(** Bob's rename is rejected by the e-mail view's handler. *)
Lemma settings_rejection_rerenders_witness :
  settings_post (H := collaborators) Email reject (request bob []) (world (filled true)) =
    (Return (Template "user/change_email.html"
               (populate_errors rejection (filled true))),
     after (H := collaborators) (world (filled true)) (db (world (filled true)))
       (populate_errors rejection (filled true))
       [Validate true;
        Apply_changeset bob robert;
        Populate_errors rejection]).
Proof.
  apply (settings_rejection_rerenders (H := collaborators) Email reject (request bob [])
           (world (filled true)) (filled true) rejection
           (db (world (filled true)))); reflexivity.
Defined.

(** The password view's handler cannot write. *)
Lemma settings_persistence_failure_redirects_witness :
  settings_post (H := collaborators) Password broken (request bob []) (world (filled true)) =
    (Return (Redirect "/user.change_password"),
     after (H := collaborators) (world (filled true)) (db (world (filled true))) (filled true)
       [Validate true;
        Apply_changeset bob robert;
        Log ERROR "Error while changing password";
        Flash "Error while changing password" "danger"]).
Proof.
  apply (settings_persistence_failure_redirects (H := collaborators) Password broken
           (request bob []) (world (filled true)) (filled true)
           (db (world (filled true)))); reflexivity.
Defined.

(** A form that does not validate, on the user-details view. *)
Lemma settings_invalid_form_short_circuits_witness :
  settings_get (H := collaborators) Details rename (world (filled false)) =
    (Return (Template "user/change_user_details.html" (filled false)),
     world (filled false))
  ∧ settings_post (H := collaborators) Details rename (request bob [])
      (world (filled false)) =
    (Return (Template "user/change_user_details.html" (filled false)),
     after (H := collaborators) (world (filled false)) (db (world (filled false)))
       (filled false) [Validate false]).
Proof.
  destruct (settings_invalid_form_short_circuits (H := collaborators) Details rename
              (request bob []) (world (filled false)) (filled false))
    as [Hget Hpost].
  split; [exact Hget | apply Hpost; reflexivity].
Defined.

(** Bob becomes robert through the general settings view. *)
Lemma settings_success_notifies_then_redirects_witness :
  settings_post (H := collaborators) General rename (request bob []) (world (filled true)) =
    (Return (Redirect "/user.settings"),
     after (H := collaborators) (world (filled true))
       (renamed bob robert (db (world (filled true))))
       (filled true)
       [Validate true;
        Apply_changeset bob robert;
        Flash "Settings updated." "success"]).
Proof.
  apply (settings_success_notifies_then_redirects (H := collaborators) General rename
           (request bob []) (world (filled true)) (filled true)
           (renamed bob robert (db (world (filled true)))));
    reflexivity.
Defined.

(** Dave, who is no administrator, asks for bob's file to be deleted. *)
Lemma unauthorized_deletion_is_refused_witness :
  let req := request dave [("file_id", "7")] in
  let w := world (filled false) in
  fst (DeleteFile.post (H := collaborators) req w) = Return (Redirect "/user.user_uploads")
  ∧ uploads (db (snd (DeleteFile.post (H := collaborators) req w))) = [cat]
  ∧ fs (snd (DeleteFile.post (H := collaborators) req w)) = fs w
  ∧ occurs_in "dave"
      (format DeleteFile.warn_template (audit_fields (H := collaborators) req cat bob)).
Proof.
  intros req w.
  destruct (unauthorized_deletion_is_refused (H := collaborators) req w cat bob)
    as (Hpost & Hrows & Hfs & Hactor & _); [reflexivity .. |].
  rewrite Hpost in Hrows |- *. repeat split; assumption.
Defined.

(** C4: counterexample.  Bob deletes his own file.  Every precondition
    of the deletion holds and the view answers with the redirect, yet the
    calls it has made are not the steps of the contract alone: between
    the authorization and [os.remove] it has written a line to the log. *)
Lemma deletion_contract_omits_log_line :
  let req := request bob [("file_id", "7")] in
  let w := world (filled false) in
  resolve_file (H := collaborators) req w = Some cat
  ∧ resolve_owner (H := collaborators) cat w = Some bob
  ∧ allowed (H := collaborators) req bob = true
  ∧ os.refusal (fs w) cat_path = None
  ∧ fst (DeleteFile.post (H := collaborators) req w) = Return (Redirect "/user.user_uploads")
  ∧ trace (snd (DeleteFile.post (H := collaborators) req w)) =
      [Query_file 7; Query_user 2;
       Log INFO "File <UploadedFile cat.png>(owned by:<User bob>, discord:bob#2)) was deleted by bob(discord:bob#2)";
       Os_remove cat_path; Delete_record 7; Flash "File deleted." "success"]
  ∧ trace (snd (DeleteFile.post (H := collaborators) req w)) ≠
      trace w ++ contract_steps (H := collaborators) req cat bob cat_path.
Proof.
  repeat split; try reflexivity.
  intros E.
  apply (f_equal (λ l, match l with
                       | _ :: _ :: Log _ _ :: _ => true
                       | _ => false
                       end)) in E.
  vm_compute in E. discriminate.
Qed.

(** Bob deletes his own file: the steps, with the line in the log. *)
Lemma file_deletion_steps_witness :
  let req := request bob [("file_id", "7")] in
  let w := world (filled false) in
  DeleteFile.post (H := collaborators) req w =
    (Return (Redirect "/user.user_uploads"),
     without_file (H := collaborators) w cat cat_path
       (logged_steps (H := collaborators) req cat bob cat_path)).
Proof.
  intros req w.
  exact (file_deletion_steps (H := collaborators) req w "/srv/uploads" cat_path
           eq_refl eq_refl eq_refl eq_refl).
Defined.

(** The stored file is write-protected: the removal fails. *)
Lemma failed_removal_propagates_witness :
  let req := request alice [("file_id", "7")] in
  let w := locked_world (filled false) in
  fst (DeleteFile.post (H := collaborators) req w) = Raise (OSError "PermissionError")
  ∧ db (snd (DeleteFile.post (H := collaborators) req w)) = db w
  ∧ resolve_file (H := collaborators) req (snd (DeleteFile.post (H := collaborators) req w)) = Some cat.
Proof.
  intros req w.
  destruct (failed_removal_propagates (H := collaborators) req w cat bob "/srv/uploads"
              cat_path "PermissionError")
    as (Hpost & Hdb & _ & Hstill); [reflexivity .. |].
  rewrite Hpost in Hdb, Hstill |- *. repeat split; assumption.
Defined.

(** A [file_id] that is no number. *)
Lemma missing_file_id_is_not_found_witness :
  let req := request dave [("file_id", "x7")] in
  let w := world (filled false) in
  args_get_int (H := collaborators) req "file_id" 0 = 0
  ∧ DeleteFile.post (H := collaborators) req w =
      (Raise NotFound, traced (H := collaborators) w [Query_file 0]).
Proof.
  intros req w.
  apply (missing_file_id_is_not_found (H := collaborators) req w); reflexivity.
Defined.

(** Carol has a linked account. *)
Lemma linked_principal_gets_no_token_witness :
  let req := request carol [] in
  let w := world (filled false) in
  GenerateToken.get (H := collaborators) req "3" w =
    (Return (Redirect "/user.profile"),
     traced (H := collaborators) w
       [Flash (format GenerateToken.linked_template ["carolkey"]) "message"])
  ∧ hub (snd (GenerateToken.get (H := collaborators) req "3" w)) = hub w.
Proof.
  intros req w.
  apply (linked_principal_gets_no_token (H := collaborators) req "3" w); reflexivity.
Defined.

Lemma tidy_world_has_one_token_each :
  at_most_one_token (hub (tidy_world (filled false))).
Proof.
  intros key.
  cbv [tokens_of tidy_world hub tokens List.filter Token.discord_user_id].
  destruct (String.eqb_spec "bob#2" key) as [Eb|Eb];
    destruct (String.eqb_spec "dave#4" key) as [Ed|Ed];
    cbn [length]; try lia.
  congruence.
Qed.

(** Bob, who holds the token [aa], asks for a new one. *)
Lemma token_generation_replaces_tokens_witness :
  let req := request bob [] in
  let w := tidy_world (filled false) in
  let fresh := Token.mk "000102030405060708090a0b0c0d0e0f" "bob#2" in
  tokens (hub (snd (GenerateToken.get (H := collaborators) req "2" w))) =
    [Token.mk "bb" "dave#4"; fresh]
  ∧ tokens_of "bob#2" (hub (snd (GenerateToken.get (H := collaborators) req "2" w))) = [fresh]
  ∧ at_most_one_token (hub (snd (GenerateToken.get (H := collaborators) req "2" w))).
Proof.
  intros req w fresh.
  destruct (token_generation_replaces_tokens (H := collaborators) req "2" w eq_refl)
    as (_ & _ & Hrows & _ & Hown & Hinv).
  split; [exact Hrows | split; [exact Hown |]].
  apply Hinv, tidy_world_has_one_token_each.
Defined.
End on_the_small_forum.

(** * Further properties *)

(** ** Settings views: what no [except] clause catches, and the frame *)

Section settings_frame.
Context `{Collaborators}.

Lemma settings_post_shape (v : SettingsView) (h : UpdateHandler) (req : Request)
    (w : World) :
  ∃ (d : Database) (f : Form) (evs : list Event),
    snd (settings_post v h req w) = after w d f evs
    ∧ handler_calls evs
      = (if fst (validate_on_submit (form w)) then 1 else 0)%nat
    ∧ settings_answer v (fst (settings_post v h req w)).
Proof.
  destruct (validate_on_submit (form w)) as [[|] f'] eqn:Hv.
  - destruct (apply_changeset h (current_user req) (as_change f') (db w))
      as [r d'] eqn:Ha.
    rewrite (settings_post_valid v h req w f' r d' Hv Ha).
    destruct r as [[]|[]]; cbn; eexists _, _, _; repeat split.
  - rewrite (settings_post_invalid v h req w f' Hv).
    cbn; eexists _, _, _; repeat split.
Qed.

(** X1.  In each of the four settings views, an exception of
    [apply_changeset] that is neither [StopValidation] nor
    [PersistenceError] leaves the POST handler as it is: after the
    validation and the handler call the view calls nothing, so no errors
    reach the form, nothing is logged and nothing is flashed. *)
Theorem settings_other_exception_propagates (v : SettingsView)
    (h : UpdateHandler) (req : Request) (w : World) (f' : Form) (e : Exn)
    (d' : Database) :
  validate_on_submit (form w) = (true, f') →
  apply_changeset h (current_user req) (as_change f') (db w) = (Raise e, d') →
  caught e = false →
  settings_post v h req w =
    (Raise e,
     after w d' f'
       [Validate true; Apply_changeset (current_user req) (as_change f')]).
Proof.
  intros Hv Ha Hc. rewrite (settings_post_valid v h req w f' _ d' Hv Ha).
  destruct e; try discriminate Hc; reflexivity.
Qed.

End settings_frame.

(** ** The list of uploads *)

Section uploads_facts.
Context `{Collaborators}.

(** X3.  [UserUploads.get] renders the uploads page with the rows of the
    table of uploaded files whose [user_id] is the requester's [id], all
    of them and no others, and changes nothing. *)
Theorem uploads_page_lists_own_files (req : Request) (w : World) :
  ∃ listed,
    UserUploads.get req w = (Return (FileList "user/user_uploads.html" listed), w)
    ∧ ∀ f, In f listed ↔
           In f (uploads (db w))
           ∧ UploadedFile.user_id f = User.id (current_user req).
Proof.
  eexists. split; [reflexivity|].
  intros f. rewrite List.filter_In, Z.eqb_eq. reflexivity.
Qed.
End uploads_facts.

(** ** File deletion: the other exits, and what a deletion leaves *)

Section deletion_frame.
Context `{Collaborators}.

Lemma delete_no_folder (req : Request) (w : World) (f : UploadedFile.t)
    (o : User.t) :
  resolve_file req w = Some f →
  resolve_owner f w = Some o →
  allowed req o = true →
  config req !! "UPLOAD_FOLDER" = None →
  DeleteFile.post req w =
    (Raise (KeyError "UPLOAD_FOLDER"),
     traced w ([Query_file (args_get_int req "file_id" 0);
                Query_user (UploadedFile.user_id f)]
               ++ authorization_calls req o)).
Proof.
  unfold resolve_file, resolve_owner, allowed, DeleteFile.post,
    authorization_calls.
  intros Hf Ho Ha Hc. open_world w.
  run. rewrite Hf. run. rewrite Ho. run.
  destruct (User.id o =? User.id (current_user req)); cbn in Ha |- *;
    rewrite ?Ha; run; rewrite Hc; same_world.
Qed.

Lemma delete_unsafe_path (req : Request) (w : World) (f : UploadedFile.t)
    (o : User.t) (root : string) :
  resolve_file req w = Some f →
  resolve_owner f w = Some o →
  allowed req o = true →
  config req !! "UPLOAD_FOLDER" = Some root →
  safe_join root [User.discord o; UploadedFile.current_name f] = None →
  DeleteFile.post req w =
    (Raise NotFound,
     traced w ([Query_file (args_get_int req "file_id" 0);
                Query_user (UploadedFile.user_id f)]
               ++ authorization_calls req o)).
Proof.
  unfold resolve_file, resolve_owner, allowed, DeleteFile.post,
    authorization_calls.
  intros Hf Ho Ha Hc Hj. open_world w.
  run. rewrite Hf. run. rewrite Ho. run.
  destruct (User.id o =? User.id (current_user req)); cbn in Ha |- *;
    rewrite ?Ha; run; rewrite Hc; run; rewrite Hj; same_world.
Qed.

(** Every run of [DeleteFile.post] ends in one of two ways: with the
    world as it was but for the trace, or with one file gone. *)
Lemma delete_post_cases (req : Request) (w : World) :
  deletion_answer (fst (DeleteFile.post req w))
  ∧ ((∃ evs, snd (DeleteFile.post req w) = traced w evs)
     ∨ (∃ f path evs,
          resolve_file req w = Some f
          ∧ snd (DeleteFile.post req w) = without_file w f path evs)).
Proof.
  destruct (resolve_file req w) as [f|] eqn:Hf;
    [| rewrite (delete_file_missing req w Hf); cbn; eauto].
  destruct (resolve_owner f w) as [o|] eqn:Ho;
    [| rewrite (delete_owner_missing req w f Hf Ho); cbn; eauto].
  destruct (allowed req o) eqn:Ha;
    [| rewrite (delete_refused req w f o Hf Ho Ha); cbn; eauto].
  destruct (config req !! "UPLOAD_FOLDER") as [root|] eqn:Hc;
    [| rewrite (delete_no_folder req w f o Hf Ho Ha Hc); cbn; eauto].
  destruct (safe_join root [User.discord o; UploadedFile.current_name f])
    as [path|] eqn:Hj;
    [| rewrite (delete_unsafe_path req w f o root Hf Ho Ha Hc Hj); cbn; eauto].
  rewrite (delete_allowed req w f o root path Hf Ho Ha Hc Hj).
  destruct (os.refusal (fs w) path); cbn; eauto 10.
Qed.

Lemma find_after_filter {A} (p q : A → bool) (l : list A) :
  (∀ x, p x = true → q x = false) →
  List.find p (List.filter q l) = None.
Proof.
  intros Hpq. induction l as [|x l IH]; [reflexivity|].
  cbn. destruct (q x) eqn:Hq; [|exact IH].
  cbn. destruct (p x) eqn:Hp; [|exact IH].
  apply Hpq in Hp. congruence.
Qed.

Lemma resolved_file_id (req : Request) (w : World) (f : UploadedFile.t) :
  resolve_file req w = Some f →
  UploadedFile.id f = args_get_int req "file_id" 0
  ∧ In f (uploads (db w)).
Proof.
  intros Hf. apply List.find_some in Hf as [Hin Hid].
  apply Z.eqb_eq in Hid. now split.
Qed.

(** X4.  When [safe_join] refuses the path (the NotFound it raises), an
    allowed deletion ends in a 404 after the authorization: nothing is
    logged, [os.remove] and the record's [delete] are not called, and the
    record and the files are as before. *)
Theorem refused_path_is_not_found (req : Request) (w : World)
    (f : UploadedFile.t) (o : User.t) (root : string) :
  resolve_file req w = Some f →
  resolve_owner f w = Some o →
  allowed req o = true →
  config req !! "UPLOAD_FOLDER" = Some root →
  safe_join root [User.discord o; UploadedFile.current_name f] = None →
  let w' := snd (DeleteFile.post req w) in
  DeleteFile.post req w =
    (Raise NotFound,
     traced w ([Query_file (args_get_int req "file_id" 0);
                Query_user (UploadedFile.user_id f)]
               ++ authorization_calls req o))
  ∧ db w' = db w
  ∧ fs w' = fs w
  ∧ resolve_file req w' = Some f.
Proof.
  intros Hf Ho Ha Hc Hj w'. subst w'.
  rewrite (delete_unsafe_path req w f o root Hf Ho Ha Hc Hj).
  repeat split. exact Hf.
Qed.

(** X5.  When the configuration has no [UPLOAD_FOLDER], an allowed
    deletion ends in the KeyError of the lookup, after the authorization
    and before anything is logged, removed or deleted. *)
Theorem missing_upload_folder_is_key_error (req : Request) (w : World)
    (f : UploadedFile.t) (o : User.t) :
  resolve_file req w = Some f →
  resolve_owner f w = Some o →
  allowed req o = true →
  config req !! "UPLOAD_FOLDER" = None →
  let w' := snd (DeleteFile.post req w) in
  DeleteFile.post req w =
    (Raise (KeyError "UPLOAD_FOLDER"),
     traced w ([Query_file (args_get_int req "file_id" 0);
                Query_user (UploadedFile.user_id f)]
               ++ authorization_calls req o))
  ∧ db w' = db w
  ∧ fs w' = fs w.
Proof.
  intros Hf Ho Ha Hc w'. subst w'.
  rewrite (delete_no_folder req w f o Hf Ho Ha Hc). now repeat split.
Qed.

(** X6.  After a deletion that went through, the record no longer
    resolves and there is no file at the path; the same request sent
    again ends in a 404 after the query for the record, with the world
    otherwise as the first request left it. *)
Theorem deleted_file_is_gone (req : Request) (w : World)
    (f : UploadedFile.t) (o : User.t) (root path : string) :
  resolve_file req w = Some f →
  resolve_owner f w = Some o →
  allowed req o = true →
  config req !! "UPLOAD_FOLDER" = Some root →
  safe_join root [User.discord o; UploadedFile.current_name f] = Some path →
  os.refusal (fs w) path = None →
  let w' := snd (DeleteFile.post req w) in
  resolve_file req w' = None
  ∧ files (fs w') !! path = None
  ∧ DeleteFile.post req w' =
      (Raise NotFound, traced w' [Query_file (args_get_int req "file_id" 0)]).
Proof.
  intros Hf Ho Ha Hc Hj Hr w'. subst w'.
  rewrite (delete_allowed req w f o root path Hf Ho Ha Hc Hj), Hr.
  cbn [snd].
  assert (Hgone : resolve_file req
                    (without_file w f path (logged_steps req f o path)) = None).
  { unfold resolve_file, without_file; cbn [db uploads].
    apply find_after_filter. intros x Hx.
    apply Z.eqb_eq in Hx.
    destruct (resolved_file_id req w f Hf) as [Hid _].
    rewrite Hx, <- Hid, Z.eqb_refl. reflexivity. }
  split; [exact Hgone|]. split.
  - unfold without_file; cbn [fs files]. apply lookup_delete_eq.
  - now apply delete_file_missing.
Qed.

(** X7.  A deletion that went through removes one record and one file:
    every row with another identity and every file at another path is
    there as before, and the table of users is untouched. *)
Theorem deletion_spares_the_rest (req : Request) (w : World)
    (f : UploadedFile.t) (o : User.t) (root path : string) :
  resolve_file req w = Some f →
  resolve_owner f w = Some o →
  allowed req o = true →
  config req !! "UPLOAD_FOLDER" = Some root →
  safe_join root [User.discord o; UploadedFile.current_name f] = Some path →
  os.refusal (fs w) path = None →
  let w' := snd (DeleteFile.post req w) in
  (∀ g, UploadedFile.id g ≠ UploadedFile.id f →
        (In g (uploads (db w')) ↔ In g (uploads (db w))))
  ∧ (∀ p, p ≠ path → files (fs w') !! p = files (fs w) !! p)
  ∧ users (db w') = users (db w)
  ∧ hub w' = hub w.
Proof.
  intros Hf Ho Ha Hc Hj Hr w'. subst w'.
  rewrite (delete_allowed req w f o root path Hf Ho Ha Hc Hj), Hr.
  unfold without_file; cbn [snd db fs uploads users files hub].
  repeat split.
  - intros Hin. now apply List.filter_In in Hin as [Hin _].
  - intros Hin. apply List.filter_In. split; [exact Hin|].
    apply negb_true_iff, Z.eqb_neq. assumption.
  - intros p Hp. now apply lookup_delete_ne.
Qed.

End deletion_frame.

(** ** Token generation: other identities, repetition, the message *)

Section token_frame.
Context `{Collaborators}.

Lemma tokens_of_purged_other (k key : string) (h : HubSession) :
  k ≠ key → tokens_of k (purged key h) = tokens_of k h.
Proof.
  intros Hk. unfold tokens_of, purged; cbn [tokens].
  induction (tokens h) as [|t l IH]; [reflexivity|].
  cbn. destruct (String.eqb_spec (Token.discord_user_id t) key) as [Et|Et]; cbn.
  - destruct (String.eqb_spec (Token.discord_user_id t) k) as [Ek|Ek];
      [congruence | exact IH].
  - destruct (String.eqb (Token.discord_user_id t) k); now rewrite IH.
Qed.

Lemma token_message_shape (a : string) :
  format GenerateToken.token_template [a] =
    "Ваш токен " +:+ a +:+ ". Чтобы выполнить привязку BYOND аккаунта, введите его, с помощью консольной команды `.chaotic-token` на одном из наших серверов.".
Proof. reflexivity. Qed.

Lemma generate_token_linked (req : Request) (userid : string) (w : World) :
  GenerateToken.truthy (get_byond_ckey (current_user req)) = true →
  GenerateToken.get req userid w =
    (Return (Redirect (url_for "user.profile"
                         [("userid", User.id (current_user req))])),
     traced w [Flash (format GenerateToken.linked_template
                        [GenerateToken.py_str
                           (get_byond_ckey (current_user req))])
                 "message"]).
Proof.
  intros Hl. unfold GenerateToken.get. rewrite Hl. open_world w. same_world.
Qed.

(** X9.  [GenerateToken.get] leaves the tokens of every other external
    identity as they are, whether it issues a token or not. *)
Theorem other_identities_keep_their_tokens (req : Request) (userid : string)
    (w : World) (k : string) :
  k ≠ User.discord (current_user req) →
  tokens_of k (hub (snd (GenerateToken.get req userid w))) = tokens_of k (hub w).
Proof.
  intros Hk.
  destruct (GenerateToken.truthy (get_byond_ckey (current_user req))) eqn:Hl.
  - rewrite (generate_token_linked req userid w Hl). reflexivity.
  - rewrite (generate_token_unlinked req userid w Hl). cbn [snd hub].
    rewrite (tokens_of_issue k (User.discord (current_user req)) (hub w)
               (issued req w) eq_refl).
    destruct (String.eqb_spec (User.discord (current_user req)) k) as [E|E];
      [congruence|].
    rewrite app_nil_r. now apply tokens_of_purged_other.
Qed.

(** X10.  Asking twice issues two tokens and keeps one: after the second
    request the requester's identity has the token of the second draw and
    no other, the table is as long as after the first request, and the
    random source has been drawn from twice. *)
Theorem second_token_replaces_the_first (req : Request) (userid : string)
    (w : World) :
  GenerateToken.truthy (get_byond_ckey (current_user req)) = false →
  let key := User.discord (current_user req) in
  let w1 := snd (GenerateToken.get req userid w) in
  let w2 := snd (GenerateToken.get req userid w1) in
  tokens_of key (hub w1) = [issued req w]
  ∧ tokens_of key (hub w2) = [issued req w1]
  ∧ length (tokens (hub w2)) = length (tokens (hub w1))
  ∧ draws w2 = S (S (draws w)).
Proof.
  intros Hl key w1 w2. subst w1 w2.
  rewrite !(generate_token_unlinked req userid _ Hl). cbn [snd hub draws].
  assert (Hown : ∀ h t, Token.discord_user_id t = key →
            tokens_of key {| tokens := tokens (purged key h) ++ [t] |} = [t]).
  { intros h t Ht. rewrite (tokens_of_issue key key h t Ht).
    now rewrite tokens_of_purged_same, String.eqb_refl. }
  split; [now apply Hown|]. split; [now apply Hown|]. split; [|reflexivity].
  cbn [tokens]. rewrite !length_app. cbn [length]. f_equal.
  unfold purged at 1; cbn [tokens].
  rewrite List.filter_app. cbn [List.filter Token.discord_user_id issued].
  fold key. rewrite String.eqb_refl. cbn [negb]. rewrite app_nil_r.
  set (l := tokens (purged key (hub w))).
  assert (Hl' : List.filter
            (λ t, negb (String.eqb (Token.discord_user_id t) key)) l = l).
  { subst l. unfold purged; cbn [tokens].
    induction (tokens (hub w)) as [|t l IH]; [reflexivity|].
    cbn. destruct (String.eqb (Token.discord_user_id t) key) eqn:E; cbn;
      [exact IH | now rewrite E, IH]. }
  now rewrite Hl'.
Qed.

(** X11.  A request that issues a token flashes once, and the message
    shown contains the token; the forum database and the files are not
    touched. *)
Theorem issued_token_is_shown (req : Request) (userid : string) (w : World) :
  GenerateToken.truthy (get_byond_ckey (current_user req)) = false →
  let w' := snd (GenerateToken.get req userid w) in
  (∃ evs message,
     trace w' = trace w ++ evs
     ∧ flashed evs = [message]
     ∧ occurs_in (Token.token (issued req w)) message)
  ∧ db w' = db w
  ∧ fs w' = fs w.
Proof.
  intros Hl w'. subst w'.
  rewrite (generate_token_unlinked req userid w Hl). cbn [snd trace db fs].
  split; [|now split].
  eexists _, _. split; [reflexivity|]. split; [reflexivity|].
  rewrite token_message_shape. apply occurs_in_middle.
Qed.
End token_frame.

(** ** Routes and redirects *)

Section routes_facts.
Context `{Collaborators}.

Lemma loaded_endpoints (app app' : routes.App) :
  routes.flaskbb_load_blueprints app = Some app' →
  routes.endpoints app' =
    routes.endpoints app ++
    ["user.change_email"; "user.settings"; "user.change_password";
     "user.change_user_details"; "user.user_uploads"; "user.delete_file";
     "user.view_all_posts"; "user.view_all_topics"; "user.generate_token";
     "user.profile"].
Proof.
  unfold routes.flaskbb_load_blueprints.
  destruct (routes.app_config app !! "USER_URL_PREFIX") as [prefix|];
    [|discriminate].
  intros [= <-]. unfold routes.endpoints, routes.register_blueprint.
  cbn [routes.url_map]. rewrite map_app. reflexivity.
Qed.

(** X12.  Once [flaskbb_load_blueprints] has run, every redirect a
    settings view, the file-deletion view or the token view answers with
    is the URL of an endpoint the application has a rule for. *)
Theorem redirects_stay_within_the_routes (app app' : routes.App) :
  routes.flaskbb_load_blueprints app = Some app' →
  (∀ v h req w, redirects_within app' (fst (settings_post v h req w)))
  ∧ (∀ req w, redirects_within app' (fst (DeleteFile.post req w)))
  ∧ (∀ req userid w,
       redirects_within app' (fst (GenerateToken.get req userid w))).
Proof.
  intros Hload. pose proof (loaded_endpoints app app' Hload) as He.
  assert (Hin : ∀ e,
    In e ["user.settings"; "user.change_password"; "user.change_email";
          "user.change_user_details"; "user.user_uploads"; "user.profile"] →
    In e (routes.endpoints app')).
  { intros e Hin. rewrite He. apply in_app_iff. right. cbn in Hin |- *.
    intuition. }
  split; [|split].
  - intros v h req w location Hr.
    destruct (settings_post_shape v h req w) as (_ & _ & _ & _ & _ & Ha).
    rewrite Hr in Ha. cbn in Ha. subst location.
    destruct v; eexists _, []; (split; [reflexivity|]); apply Hin; cbn; auto 10.
  - intros req w location Hr.
    destruct (delete_post_cases req w) as [Ha _].
    rewrite Hr in Ha. cbn in Ha. subst location.
    eexists _, []. split; [reflexivity|]. apply Hin; cbn; auto 10.
  - intros req userid w location Hr.
    destruct (GenerateToken.truthy (get_byond_ckey (current_user req))) eqn:Hl.
    + rewrite (generate_token_linked req userid w Hl) in Hr.
      injection Hr as <-. eexists _, _. split; [reflexivity|].
      apply Hin; cbn; auto 10.
    + rewrite (generate_token_unlinked req userid w Hl) in Hr.
      injection Hr as <-. eexists _, _. split; [reflexivity|].
      apply Hin; cbn; auto 10.
Qed.
End routes_facts.

(** ** The further properties on the small forum *)

Section more_on_the_small_forum.
Import demo cases.

(** The general settings view with a handler that crashes. *)
Lemma settings_other_exception_propagates_witness :
  settings_post (H := collaborators) General crash (request bob [])
    (world (filled true)) =
    (Raise (OtherError "RuntimeError"),
     after (H := collaborators) (world (filled true))
       (db (world (filled true))) (filled true)
       [Validate true; Apply_changeset bob robert]).
Proof.
  apply (settings_other_exception_propagates (H := collaborators) General crash
           (request bob []) (world (filled true)) (filled true)
           (OtherError "RuntimeError") (db (world (filled true))));
    reflexivity.
Defined.

(** Bob asks for the record whose stored name is [..] to be deleted. *)
Lemma refused_path_is_not_found_witness :
  let req := request bob [("file_id", "8")] in
  DeleteFile.post (H := collaborators) req trap_world =
    (Raise NotFound,
     traced (H := collaborators) trap_world [Query_file 8; Query_user 2])
  ∧ resolve_file (H := collaborators) req
      (snd (DeleteFile.post (H := collaborators) req trap_world)) = Some trap.
Proof.
  intros req.
  destruct (refused_path_is_not_found (H := collaborators) req trap_world
              trap bob "/srv/uploads")
    as (Hpost & _ & _ & Hstill); [reflexivity .. |].
  split; [exact Hpost | exact Hstill].
Defined.

(** Bob deletes his file on an application without an upload folder. *)
Lemma missing_upload_folder_is_key_error_witness :
  let req := bare_request bob [("file_id", "7")] in
  let w := world (filled false) in
  DeleteFile.post (H := collaborators) req w =
    (Raise (KeyError "UPLOAD_FOLDER"),
     traced (H := collaborators) w [Query_file 7; Query_user 2])
  ∧ fs (snd (DeleteFile.post (H := collaborators) req w)) = fs w.
Proof.
  intros req w.
  destruct (missing_upload_folder_is_key_error (H := collaborators) req w
              cat bob)
    as (Hpost & _ & Hfs); [reflexivity .. |].
  split; [exact Hpost | exact Hfs].
Defined.

(** Bob deletes his file, and asks again. *)
Lemma deleted_file_is_gone_witness :
  let req := request bob [("file_id", "7")] in
  let w' := snd (DeleteFile.post (H := collaborators) req
                   (world (filled false))) in
  resolve_file (H := collaborators) req w' = None
  ∧ files (fs w') !! cat_path = None
  ∧ fst (DeleteFile.post (H := collaborators) req w') = Raise NotFound.
Proof.
  intros req w'. subst w'.
  destruct (deleted_file_is_gone (H := collaborators) req
              (world (filled false)) cat bob "/srv/uploads" cat_path)
    as (Hgone & Hbytes & Hagain); [reflexivity .. |].
  split; [exact Hgone|]. split; [exact Hbytes|]. now rewrite Hagain.
Defined.

(** Alice deletes bob's file in the forum that also holds the record
    with identity 8: that record stays. *)
Lemma deletion_spares_the_rest_witness :
  let req := request alice [("file_id", "7")] in
  let w' := snd (DeleteFile.post (H := collaborators) req trap_world) in
  In trap (uploads (db w'))
  ∧ users (db w') = users (db trap_world).
Proof.
  intros req w'. subst w'.
  destruct (deletion_spares_the_rest (H := collaborators) req trap_world
              cat bob "/srv/uploads" cat_path)
    as (Hrows & _ & Husers & _); [reflexivity .. |].
  split; [|exact Husers].
  apply (Hrows trap); [discriminate|]. cbn. auto.
Defined.

(** Bob asks for a token: dave's token stays. *)
Lemma other_identities_keep_their_tokens_witness :
  tokens_of "dave#4"
    (hub (snd (GenerateToken.get (H := collaborators) (request bob []) "2"
                 (world (filled false)))))
  = [Token.mk "bb" "dave#4"].
Proof.
  rewrite (other_identities_keep_their_tokens (H := collaborators)
             (request bob []) "2" (world (filled false)) "dave#4");
    [reflexivity | discriminate].
Defined.

(** Bob asks for a token twice. *)
Lemma second_token_replaces_the_first_witness :
  let req := request bob [] in
  let w1 := snd (GenerateToken.get (H := collaborators) req "2"
                   (world (filled false))) in
  let w2 := snd (GenerateToken.get (H := collaborators) req "2" w1) in
  tokens_of "bob#2" (hub w2) = [Token.mk "f0e0d0c0b0a090807060504030201000" "bob#2"]
  ∧ draws w2 = 2%nat.
Proof.
  intros req w1 w2. subst w1 w2.
  destruct (second_token_replaces_the_first (H := collaborators) req "2"
              (world (filled false)) eq_refl)
    as (_ & Hown & _ & Hdraws).
  split; [exact Hown | exact Hdraws].
Defined.

(** Bob is shown his token. *)
Lemma issued_token_is_shown_witness :
  let req := request bob [] in
  let w := world (filled false) in
  (∃ evs message,
     trace (snd (GenerateToken.get (H := collaborators) req "2" w))
       = trace w ++ evs
     ∧ flashed (H := collaborators) evs = [message]
     ∧ occurs_in "000102030405060708090a0b0c0d0e0f" message)
  ∧ db (snd (GenerateToken.get (H := collaborators) req "2" w)) = db w.
Proof.
  intros req w.
  destruct (issued_token_is_shown (H := collaborators) req "2" w eq_refl)
    as (Hshown & Hdb & _).
  split; [exact Hshown | exact Hdb].
Defined.

(** The routes of the forum application hold the uploads page dave is
    sent back to. *)
Lemma redirects_stay_within_the_routes_witness :
  ∃ app',
    routes.flaskbb_load_blueprints forum_app = Some app'
    ∧ redirects_within (H := collaborators) app'
        (fst (DeleteFile.post (H := collaborators)
                (request dave [("file_id", "7")]) (world (filled false)))).
Proof.
  eexists. split; [reflexivity|].
  apply (redirects_stay_within_the_routes (H := collaborators) forum_app _
           eq_refl).
Defined.
End more_on_the_small_forum.
